(** * SQLite tool server and CSV loader: a shallow embedding

    This development embeds the two Python modules of the repository,

    - [load_csv_to_sqlite.py] (function [load_database]) and
    - [sql_mcp.py] (functions [execute_query], [list_tables],
      [describe_table], [execute_select_query]),

    and states the properties of the written specification over them.

    The SQLite engine and the [csv] reader are libraries the program calls;
    they are not part of the repository.  The query service is therefore
    written over an arbitrary engine (a [Section] variable), and the facts
    that need the meaning of a statement are proved on [MiniSqlite], a small
    executable model of the engine on the statement shapes the program
    issues. *)

From Stdlib Require Import String Ascii List ZArith Bool Lia Arith.
From Stdlib Require Import DecimalString Sorted Permutation.
Import ListNotations.
Open Scope list_scope.
Open Scope string_scope.

Set Implicit Arguments.
Set Warnings "-register-all".


(** ** Python strings

    Text is modelled at the ASCII level: a character above 127 is opaque,
    neither white space nor a cased letter. *)

Module PyStr.

(** [str.isspace] on one ASCII character: TAB, LF, VT, FF, CR, the four
    information separators 28 to 31 and the blank. *)
Definition is_space (c : ascii) : bool :=
  let n := nat_of_ascii c in
  ((9 <=? n)%nat && (n <=? 13)%nat) || ((28 <=? n)%nat && (n <=? 32)%nat).

Fixpoint lstrip (s : string) : string :=
  match s with
  | EmptyString => EmptyString
  | String c s' => if is_space c then lstrip s' else s
  end.

Fixpoint rstrip (s : string) : string :=
  match s with
  | EmptyString => EmptyString
  | String c s' =>
      match rstrip s' with
      | EmptyString => if is_space c then EmptyString else String c EmptyString
      | r => String c r
      end
  end.

(** [s.strip()] *)
Definition strip (s : string) : string := rstrip (lstrip s).

Definition upper_char (c : ascii) : ascii :=
  let n := nat_of_ascii c in
  if (97 <=? n)%nat && (n <=? 122)%nat then ascii_of_nat (n - 32) else c.

Definition lower_char (c : ascii) : ascii :=
  let n := nat_of_ascii c in
  if (65 <=? n)%nat && (n <=? 90)%nat then ascii_of_nat (n + 32) else c.

Fixpoint map_chars (f : ascii -> ascii) (s : string) : string :=
  match s with
  | EmptyString => EmptyString
  | String c s' => String (f c) (map_chars f s')
  end.

(** [s.upper()] and [s.lower()] *)
Definition upper : string -> string := map_chars upper_char.
Definition lower : string -> string := map_chars lower_char.

(** [s.startswith(p)] *)
Definition startswith (s p : string) : bool := String.prefix p s.

(** [sep.join(parts)] *)
Definition join (sep : string) (parts : list string) : string :=
  String.concat sep parts.

(** The characters of a string, as the one-character strings Python
    iterates over. *)
Fixpoint chars (s : string) : list string :=
  match s with
  | EmptyString => []
  | String c s' => String c EmptyString :: chars s'
  end.

(** [s * n] *)
Fixpoint repeat_str (s : string) (n : nat) : string :=
  match n with
  | O => EmptyString
  | S n' => s ++ repeat_str s n'
  end.

(** [str(n)] for a natural number. *)
Definition of_nat (n : nat) : string :=
  NilEmpty.string_of_uint (Nat.to_uint n).

(** Substring test, [needle in s]. *)
Fixpoint contains (s needle : string) : bool :=
  String.prefix needle s ||
  match s with
  | EmptyString => false
  | String _ s' => contains s' needle
  end.

End PyStr.

(** ** Python values

    The values that cross the two boundaries of the program: what the
    engine hands back for a cell ([None], [int], [float], [str], [bytes])
    and what a tool returns (dictionaries and lists of those).  A [dict]
    is an association list in insertion order with distinct keys. *)

Inductive pyval : Type :=
| PNone
| PBool (b : bool)
| PInt (n : Z)
| PFloat (mantissa exponent : Z)
| PStr (s : string)
| PBytes (bs : list ascii)
| PList (items : list pyval)
| PDict (entries : list (string * pyval)).

Definition pydict : Type := list (string * pyval).

Module PyDict.

Fixpoint get (d : pydict) (k : string) : option pyval :=
  match d with
  | [] => None
  | (k', v) :: d' => if String.eqb k k' then Some v else get d' k
  end.

Definition has_key (d : pydict) (k : string) : bool :=
  match get d k with Some _ => true | None => false end.

(** [d[k] = v]: an existing key keeps its position. *)
Fixpoint set (d : pydict) (k : string) (v : pyval) : pydict :=
  match d with
  | [] => [(k, v)]
  | (k', v') :: d' =>
      if String.eqb k k' then (k', v) :: d' else (k', v') :: set d' k v
  end.

Definition keys (d : pydict) : list string := map fst d.

End PyDict.

(** [bool(v)] *)
Definition truthy (v : pyval) : bool :=
  match v with
  | PNone => false
  | PBool b => b
  | PInt n => negb (Z.eqb n 0)
  | PFloat m _ => negb (Z.eqb m 0)
  | PStr s => negb (String.eqb s "")
  | PBytes bs => match bs with [] => false | _ => true end
  | PList l => match l with [] => false | _ => true end
  | PDict d => match d with [] => false | _ => true end
  end.

(** ** Exceptions

    The classes the program can meet.  Every one of them derives from
    [Exception], so a handler [except Exception] catches each. *)

Inductive exn_class : Type :=
| OSError            (* [IOError] is the same class *)
| StopIteration
| KeyError
| OperationalError   (* sqlite3 *)
| ProgrammingError   (* sqlite3 *)
| DatabaseError.     (* any other sqlite3.Error *)


(** An exception object: its class and [str(e)]. *)
Record exn : Type := Exn { exn_cls : exn_class; exn_str : string }.

Inductive result (A : Type) : Type :=
| Ret (a : A)
| Raise (e : exn).

Arguments Ret {A} a.
Arguments Raise {A} e.

(** ** The store boundary

    A statement as it reaches the engine: its SQL text and what is bound
    to it. *)

Inductive binding : Type :=
| Unbound                               (* [execute(sql)] *)
| Named (params : pydict)               (* [execute(sql, params)] *)
| Rows (rows : list (list string)).     (* [executemany(sql, reader)] *)

Record statement : Type := Stmt { sql_text : string; bound : binding }.

(** A result row as the engine yields it ([sqlite3.Row]): column names
    with their cells, in column order. *)
Definition raw_row : Type := list (string * pyval).

(** ** The effect monad

    A computation may raise, and it issues statements to the store; the
    statements are recorded in the order they are issued. *)

Definition M (A : Type) : Type := (result A * list statement)%type.

Definition ret {A} (a : A) : M A := (Ret a, []).
Definition raise {A} (e : exn) : M A := (Raise e, []).

Definition bind {A B} (m : M A) (k : A -> M B) : M B :=
  match m with
  | (Ret a, w) => let '(r, w') := k a in (r, (w ++ w')%list)
  | (Raise e, w) => (Raise e, w)
  end.

(** [try: m  except Exception as e: handler e] *)
Definition try_except {A} (m : M A) (handler : exn -> M A) : M A :=
  match m with
  | (Ret a, w) => (Ret a, w)
  | (Raise e, w) => let '(r, w') := handler e in (r, (w ++ w')%list)
  end.

Definition outcome {A} (m : M A) : result A := fst m.
Definition issued {A} (m : M A) : list statement := snd m.

Declare Scope py_scope.
Delimit Scope py_scope with py.
Notation "x <- m ;; k" := (bind m (fun x => k))
  (at level 61, m at next level, right associativity) : py_scope.
Open Scope py_scope.

(** [row[k]] on a dictionary. *)
Definition subscript (row : pydict) (k : string) : M pyval :=
  match PyDict.get row k with
  | Some v => ret v
  | None => raise (Exn KeyError ("'" ++ k ++ "'"))
  end.

(** [[f(x) for x in xs]] where [f] may raise. *)
Fixpoint for_each {A B} (f : A -> M B) (xs : list A) : M (list B) :=
  match xs with
  | [] => ret []
  | x :: xs' => y <- f x ;; ys <- for_each f xs' ;; ret (y :: ys)
  end.

(** SQLite, and [sqlite3.Row] with it, compares names without regard to
    ASCII case. *)
Definition same_name (a b : string) : bool :=
  String.eqb (PyStr.lower a) (PyStr.lower b).

(** [row[k]] on a [sqlite3.Row]: the cell of the first column of that
    name. *)
Fixpoint row_item (r : raw_row) (k : string) : option pyval :=
  match r with
  | [] => None
  | (k', v) :: r' => if same_name k k' then Some v else row_item r' k
  end.

(** [dict(row)] for a [sqlite3.Row]: every key of the row, with
    [row[key]]. *)
Definition dict_of_row (r : raw_row) : pydict :=
  fold_left (fun d k =>
               match row_item r k with
               | Some v => PyDict.set d k v
               | None => d
               end)
            (map fst r) [].

(** ** The program

    [database] is the state of a store, [engine] what one statement does
    on a connection to it: an exception, or the next state and the rows
    fetched.  [connect] is [sqlite3.connect(db_path)] for the path the
    service is configured with, [memory_db] the fresh store behind
    [sqlite3.connect(":memory:")], and [read_csv] what [open] followed by
    [csv.reader] yields for a path: [OSError], or the rows of the file. *)

Section Program.

Variable database : Type.
Variable engine : database -> statement -> result (database * list raw_row).
Variable connect : result database.
Variable memory_db : database.
Variable read_csv : string -> result (list (list string)).

Definition lift {A} (r : result A) : M A := (r, []).

(** One statement on an open connection; the statement is on record
    whether or not the engine accepts it. *)
Definition run_statement (conn : database) (st : statement)
  : M (database * list raw_row) :=
  (engine conn st, [st]).

(** *** sql_mcp.py *)

Definition envelope : Type := pydict.

Definition error_envelope (msg : string) : envelope :=
  [("status", PStr "error"); ("error_message", PStr msg)].

(** [execute_query(query, params=None)]: connect, execute with or
    without parameters, fetch all rows as dictionaries; any exception
    is logged and raised again.  The connection is closed on the way
    out, so the state after the statement is dropped. *)
Definition execute_query (query : string) (params : option pydict)
  : M (list pydict) :=
  conn <- lift connect ;;
  r <- run_statement conn
         (Stmt query
            match params with
            | Some ((_ :: _) as p) => Named p
            | _ => Unbound
            end) ;;
  ret (map dict_of_row (snd r)).

Definition list_tables_sql : string :=
  "SELECT name FROM sqlite_master WHERE type='table' ORDER BY name".

Definition list_tables : M envelope :=
  try_except
    (results <- execute_query list_tables_sql None ;;
     tables <- for_each (fun row => subscript row "name") results ;;
     ret [("status", PStr "success");
          ("total_tables", PInt (Z.of_nat (length tables)));
          ("tables", PList tables)])
    (fun e => ret (error_envelope ("Error listing tables: " ++ exn_str e))).

Definition column_info (row : pydict) : M pyval :=
  cid <- subscript row "cid" ;;
  name <- subscript row "name" ;;
  type <- subscript row "type" ;;
  notnull <- subscript row "notnull" ;;
  dflt_value <- subscript row "dflt_value" ;;
  pk <- subscript row "pk" ;;
  ret (PDict [("column_id", cid);
              ("name", name);
              ("type", type);
              ("not_null", PBool (truthy notnull));
              ("default_value", dflt_value);
              ("primary_key", PBool (truthy pk))]).

Definition describe_table (table_name : string) : M envelope :=
  try_except
    (results <- execute_query ("PRAGMA table_info(" ++ table_name ++ ")") None ;;
     match results with
     | [] => ret (error_envelope ("Table '" ++ table_name ++ "' does not exist"))
     | _ :: _ =>
         columns <- for_each column_info results ;;
         ret [("status", PStr "success");
              ("table_name", PStr table_name);
              ("columns", PList columns)]
     end)
    (fun e => ret (error_envelope ("Error describing table: " ++ exn_str e))).

(** The tool the specification calls [run_query]. *)
Definition execute_select_query (query : string) : M envelope :=
  try_except
    (let query_upper := PyStr.upper (PyStr.strip query) in
     if negb (PyStr.startswith query_upper "SELECT") then
       ret (error_envelope "Only SELECT queries are allowed for this tool")
     else
       results <- execute_query query None ;;
       ret [("status", PStr "success");
            ("query", PStr query);
            ("total_rows", PInt (Z.of_nat (length results)));
            ("results", PList (map PDict results))])
    (fun e => ret (error_envelope ("Error executing query: " ++ exn_str e))).

(** *** load_csv_to_sqlite.py *)

Definition columns_sql (headers : list string) : string :=
  PyStr.join ", " (map (fun h => "[" ++ h ++ "] TEXT") headers).

Definition create_sql (headers : list string) : string :=
  "CREATE TABLE electric_vehicle_population (" ++ columns_sql headers ++ ")".

Definition placeholders (headers : list string) : string :=
  PyStr.join ", " (PyStr.chars (PyStr.repeat_str "?" (length headers))).

Definition insert_sql (headers : list string) : string :=
  "INSERT INTO electric_vehicle_population VALUES (" ++ placeholders headers ++ ")".

(** [load_database(csv_path)]: the first row of the file names the
    columns, every later row is inserted; the connection is returned. *)
Definition load_database (csv_path : string) : M database :=
  reader <- lift (read_csv csv_path) ;;
  match reader with
  | [] => raise (Exn StopIteration "")
  | headers :: rest =>
      created <- run_statement memory_db (Stmt (create_sql headers) Unbound) ;;
      loaded <- run_statement (fst created) (Stmt (insert_sql headers) (Rows rest)) ;;
      ret (fst loaded)
  end.

(** *** The interactive loop of load_csv_to_sqlite.py

    The keyboard is the list of lines still to be typed; once it is
    used up [input] meets the end of the file.  What is written comes
    out as events: the prompt of [input], a printed text, and
    [print(row)] with the cells of the row. *)








End Program.

(** ** A model of the engine

    [MiniSqlite] gives the statements the program issues the meaning
    SQLite gives them: [CREATE TABLE t ([c] TEXT, ...)],
    [INSERT INTO t VALUES (?, ...)], the row count and the full scan of a
    table ([SELECT] of [count] or of every column [FROM t]),
    [PRAGMA table_info(t)] and the listing of table names, written with
    the spacing the program uses.  Text outside these shapes is answered
    with a syntax error, which is SQLite's answer to a table creation
    without columns, the one such text the loader can issue that matters
    below. *)

Module MiniSqlite.

Record table : Type := Table {
  tbl_name : string;
  tbl_columns : list (string * string);   (* name, declared type *)
  tbl_rows : list (list pyval)
}.

Definition database : Type := list table.

Definition empty : database := [].



Fixpoint find_table (db : database) (name : string) : option table :=
  match db with
  | [] => None
  | t :: db' => if same_name name (tbl_name t) then Some t else find_table db' name
  end.

Fixpoint replace_table (db : database) (t : table) : database :=
  match db with
  | [] => []
  | t' :: db' =>
      if same_name (tbl_name t) (tbl_name t') then t :: db'
      else t' :: replace_table db' t
  end.

(** *** Reading a statement *)

(** [eat lit s]: [s] without its prefix [lit]. *)
Fixpoint eat (lit s : string) : option string :=
  match lit with
  | EmptyString => Some s
  | String c lit' =>
      match s with
      | String d s' => if Ascii.eqb c d then eat lit' s' else None
      | EmptyString => None
      end
  end.

Definition is_ident_char (c : ascii) : bool :=
  let n := nat_of_ascii c in
  ((48 <=? n)%nat && (n <=? 57)%nat) || ((65 <=? n)%nat && (n <=? 90)%nat)
  || ((97 <=? n)%nat && (n <=? 122)%nat) || (n =? 95)%nat.

(** The longest run of identifier characters and what follows it. *)
Fixpoint take_ident (s : string) : string * string :=
  match s with
  | EmptyString => (EmptyString, EmptyString)
  | String c s' =>
      if is_ident_char c then
        let '(name, rest) := take_ident s' in (String c name, rest)
      else (EmptyString, s)
  end.

(** A name quoted in square brackets ends at the first [']']. *)
Fixpoint until_bracket (s : string) : option (string * string) :=
  match s with
  | EmptyString => None
  | String c s' =>
      if Ascii.eqb c "]" then Some (EmptyString, s')
      else
        match until_bracket s' with
        | Some (name, rest) => Some (String c name, rest)
        | None => None
        end
  end.

(** Column definitions [[c] TEXT] separated by [", "], closed by [")"]. *)
Fixpoint parse_columns (fuel : nat) (s : string) : option (list string) :=
  match fuel with
  | O => None
  | S fuel' =>
      match eat "[" s with
      | None => None
      | Some s1 =>
          match until_bracket s1 with
          | None => None
          | Some (name, s2) =>
              match eat " TEXT" s2 with
              | None => None
              | Some s3 =>
                  match eat ", " s3 with
                  | Some s4 =>
                      match parse_columns fuel' s4 with
                      | Some names => Some (name :: names)
                      | None => None
                      end
                  | None => if String.eqb s3 ")" then Some [name] else None
                  end
              end
          end
      end
  end.

(** Placeholders [?] separated by [", "], closed by [")"]. *)
Fixpoint parse_placeholders (s : string) : option nat :=
  match s with
  | String "?" (String ")" EmptyString) => Some 1
  | String "?" (String "," (String " " s')) =>
      match parse_placeholders s' with
      | Some n => Some (S n)
      | None => None
      end
  | _ => None
  end.

Inductive parsed : Type :=
| CreateTable (name : string) (columns : list string)
| InsertValues (name : string) (arity : nat)
| SelectCount (name : string)
| SelectStar (name : string)
| TableInfo (name : string)
| TableNames.

(** An unquoted table name: a non-empty identifier with the given text
    after it. *)
Definition table_then (s closing : string) : option string :=
  let '(name, rest) := take_ident s in
  if String.eqb name "" then None
  else if String.eqb rest closing then Some name else None.

Definition parse (sql : string) : option parsed :=
  match eat "CREATE TABLE " sql with
  | Some s =>
      let '(name, rest) := take_ident s in
      if String.eqb name "" then None
      else
        match eat " (" rest with
        | Some body =>
            match parse_columns (String.length body) body with
            | Some cols => Some (CreateTable name cols)
            | None => None
            end
        | None => None
        end
  | None =>
  match eat "INSERT INTO " sql with
  | Some s =>
      let '(name, rest) := take_ident s in
      if String.eqb name "" then None
      else
        match eat " VALUES (" rest with
        | Some body =>
            match parse_placeholders body with
            | Some n => Some (InsertValues name n)
            | None => None
            end
        | None => None
        end
  | None =>
  match eat "SELECT count(*) FROM " sql with
  | Some s => option_map SelectCount (table_then s "")
  | None =>
  match eat "SELECT * FROM " sql with
  | Some s => option_map SelectStar (table_then s "")
  | None =>
  match eat "PRAGMA table_info(" sql with
  | Some s => option_map TableInfo (table_then s ")")
  | None => if String.eqb sql list_tables_sql then Some TableNames else None
  end end end end end.

(** *** Running a statement *)

Definition operational (msg : string) : exn := Exn OperationalError msg.
Definition programming (msg : string) : exn := Exn ProgrammingError msg.

(** The first column name that repeats an earlier one. *)
Fixpoint first_duplicate (seen cols : list string) : option string :=
  match cols with
  | [] => None
  | c :: cs =>
      if existsb (same_name c) seen then Some c
      else first_duplicate (c :: seen) cs
  end.

Definition bindings_error (uses supplied : nat) : exn :=
  programming ("Incorrect number of bindings supplied. The current statement uses "
               ++ PyStr.of_nat uses ++ ", and there are "
               ++ PyStr.of_nat supplied ++ " supplied.").

(** [executemany]: one row per parameter set, in order, until a set of
    the wrong width. *)
Fixpoint insert_rows (arity : nat) (t : table) (rows : list (list string))
  : result table :=
  match rows with
  | [] => Ret t
  | r :: rows' =>
      if (length r =? arity)%nat then
        insert_rows arity
          (Table (tbl_name t) (tbl_columns t)
                 (tbl_rows t ++ [map PStr r])%list)
          rows'
      else Raise (bindings_error arity (length r))
  end.

Definition not_dml : exn :=
  programming "executemany() can only execute DML statements.".

Definition no_such_table (name : string) : exn :=
  operational ("no such table: " ++ name).

(** A statement that only reads takes [execute] with or without a
    dictionary, and refuses [executemany]. *)
Definition plain (b : binding) (r : result (database * list raw_row))
  : result (database * list raw_row) :=
  match b with
  | Rows _ => Raise not_dml
  | _ => r
  end.

Definition create_table (db : database) (name : string) (cols : list string)
  : result database :=
  match find_table db name with
  | Some _ => Raise (operational ("table " ++ name ++ " already exists"))
  | None =>
      match first_duplicate [] cols with
      | Some c => Raise (operational ("duplicate column name: " ++ c))
      | None => Ret (db ++ [Table name (map (fun c => (c, "TEXT")) cols) []])%list
      end
  end.

(** [executemany] of a statement without placeholders: once for every
    parameter set, each of which has to be empty. *)
Fixpoint run_each (step : database -> result database) (db : database)
         (rows : list (list string)) : result database :=
  match rows with
  | [] => Ret db
  | [] :: rows' =>
      match step db with
      | Ret db' => run_each step db' rows'
      | Raise e => Raise e
      end
  | ((_ :: _) as r) :: _ => Raise (bindings_error 0 (length r))
  end.

Definition table_info_rows (t : table) : list raw_row :=
  map (fun ic : nat * (string * string) =>
         [("cid", PInt (Z.of_nat (fst ic)));
          ("name", PStr (fst (snd ic)));
          ("type", PStr (snd (snd ic)));
          ("notnull", PInt 0);
          ("dflt_value", PNone);
          ("pk", PInt 0)])
      (combine (seq 0 (length (tbl_columns t))) (tbl_columns t)).

(** [ORDER BY name]: byte-wise order. *)
Fixpoint insert_sorted (n : string) (names : list string) : list string :=
  match names with
  | [] => [n]
  | m :: names' =>
      if String.leb n m then n :: names else m :: insert_sorted n names'
  end.

Definition sorted_names (db : database) : list string :=
  fold_right insert_sorted [] (map tbl_name db).

Definition execute (db : database) (st : statement)
  : result (database * list raw_row) :=
  match parse (sql_text st) with
  | None => Raise (operational "syntax error")
  | Some (CreateTable name cols) =>
      match create_table db name cols with
      | Raise e => Raise e
      | Ret created =>
          match bound st with
          | Rows rows =>
              match run_each (fun d => create_table d name cols) db rows with
              | Ret db' => Ret (db', [])
              | Raise e => Raise e
              end
          | _ => Ret (created, [])
          end
      end
  | Some (InsertValues name arity) =>
      match find_table db name with
      | None => Raise (no_such_table name)
      | Some t =>
          if negb (length (tbl_columns t) =? arity)%nat then
            Raise (operational
                     ("table " ++ name ++ " has "
                      ++ PyStr.of_nat (length (tbl_columns t))
                      ++ " columns but " ++ PyStr.of_nat arity
                      ++ " values were supplied"))
          else
            match bound st with
            | Unbound => Raise (bindings_error arity 0)
            | Named _ =>
                Raise (programming
                         "Binding 1 has no name, but you supplied a dictionary (which has only names).")
            | Rows rows =>
                match insert_rows arity t rows with
                | Ret t' => Ret (replace_table db t', [])
                | Raise e => Raise e
                end
            end
      end
  | Some (SelectCount name) =>
      plain (bound st)
        match find_table db name with
        | None => Raise (no_such_table name)
        | Some t =>
            Ret (db, [[("count(*)", PInt (Z.of_nat (length (tbl_rows t))))]])
        end
  | Some (SelectStar name) =>
      plain (bound st)
        match find_table db name with
        | None => Raise (no_such_table name)
        | Some t =>
            Ret (db, map (combine (map fst (tbl_columns t))) (tbl_rows t))
        end
  | Some (TableInfo name) =>
      plain (bound st)
        match find_table db name with
        | None => Ret (db, [])
        | Some t => Ret (db, table_info_rows t)
        end
  | Some TableNames =>
      plain (bound st)
        (Ret (db, map (fun n => [("name", PStr n)]) (sorted_names db)))
  end.

End MiniSqlite.

(** ** What the specification talks about *)

(** The keys of an envelope that carry a payload: all but the status and
    the error message. *)
Definition payload_keys (env : envelope) : list string :=
  filter (fun k => negb (String.eqb k "status") && negb (String.eqb k "error_message"))
         (PyDict.keys env).

Definition has_status (env : envelope) (s : string) : bool :=
  match PyDict.get env "status" with
  | Some (PStr s') => String.eqb s' s
  | _ => false
  end.

(** The envelope invariant: a success carries payload and no error
    message, an error carries an error message and no payload. *)
Definition well_formed (env : envelope) : bool :=
  if has_status env "success" then
    negb (PyDict.has_key env "error_message")
    && negb (Nat.eqb (length (payload_keys env)) 0)
  else if has_status env "error" then
    PyDict.has_key env "error_message"
    && Nat.eqb (length (payload_keys env)) 0
  else false.

(** The envelope of a query refused by the validation of
    [execute_select_query]. *)
Definition validation_envelope : envelope :=
  error_envelope "Only SELECT queries are allowed for this tool".

(** The validation itself: does the trimmed, upper-cased text start with
    the keyword? *)
Definition accepted (query : string) : bool :=
  PyStr.startswith (PyStr.upper (PyStr.strip query)) "SELECT".





(** The table the loader is to produce. *)
Definition loaded_table (headers : list string) (rows : list (list string))
  : MiniSqlite.table :=
  MiniSqlite.Table "electric_vehicle_population"
    (map (fun h => (h, "TEXT")) headers)
    (map (map PStr) rows).


(** What the metadata query tells of one column, and the row it comes
    as. *)
Record column_meta : Type := ColumnMeta {
  meta_cid : Z;
  meta_name : string;
  meta_type : string;
  meta_notnull : Z;
  meta_default : pyval;
  meta_pk : Z
}.

Definition table_info_row (c : column_meta) : raw_row :=
  [("cid", PInt (meta_cid c));
   ("name", PStr (meta_name c));
   ("type", PStr (meta_type c));
   ("notnull", PInt (meta_notnull c));
   ("dflt_value", meta_default c);
   ("pk", PInt (meta_pk c))].

(** What [describe_table] makes of it. *)
Definition described_meta (c : column_meta) : pyval :=
  PDict [("column_id", PInt (meta_cid c));
         ("name", PStr (meta_name c));
         ("type", PStr (meta_type c));
         ("not_null", PBool (negb (Z.eqb (meta_notnull c) 0)));
         ("default_value", meta_default c);
         ("primary_key", PBool (negb (Z.eqb (meta_pk c) 0)))].

(** Text made of white space only. *)
Fixpoint all_space (s : string) : bool :=
  match s with
  | EmptyString => true
  | String c s' => PyStr.is_space c && all_space s'
  end.


Unset Implicit Arguments.

(** ** Strings and the monad: basic facts *)



Lemma prefix_refl (s : string) : String.prefix s s = true.
Proof.
  induction s as [|c s IH]; simpl; [reflexivity |].
  destruct (ascii_dec c c) as [_|ne]; [exact IH | now elim ne].
Qed.

Lemma contains_suffix (a b : string) : PyStr.contains (a ++ b) b = true.
Proof.
  induction a as [|c a IH]; simpl.
  - destruct b; simpl; [reflexivity |].
    rewrite prefix_refl.
    destruct (ascii_dec a a) as [_|ne]; [reflexivity | now elim ne].
  - rewrite IH. apply orb_true_r.
Qed.

Lemma bind_outcome_ret {A B} (m : M A) (k : A -> M B) (b : B) :
  outcome (bind m k) = Ret b ->
  exists a, outcome m = Ret a /\ outcome (k a) = Ret b.
Proof.
  destruct m as [[a|e] w]; simpl.
  - destruct (k a) as [r w'] eqn:E. simpl. intros ->.
    exists a. rewrite E. split; reflexivity.
  - discriminate.
Qed.

Lemma try_except_returns {A} (m : M A) (h : exn -> M A) (P : A -> Prop) :
  (forall a, outcome m = Ret a -> P a) ->
  (forall e, exists a, outcome (h e) = Ret a /\ P a) ->
  exists a, outcome (try_except m h) = Ret a /\ P a.
Proof.
  intros Hm Hh. destruct m as [[a|e] w]; simpl.
  - exists a. split; [reflexivity | now apply Hm].
  - destruct (Hh e) as [a [Ha Pa]].
    destruct (h e) as [r w']. simpl in *. exists a. now split.
Qed.

Lemma error_envelope_well_formed (msg : string) :
  well_formed (error_envelope msg) = true.
Proof. reflexivity. Qed.







(** ** The query service, over any engine *)

Section ServiceFacts.

Variable database : Type.
Variable engine : database -> statement -> result (database * list raw_row).
Variable connect : result database.

Lemma execute_query_issued (query : string) (conn : database) :
  connect = Ret conn ->
  issued (execute_query engine connect query None) = [Stmt query Unbound].
Proof.
  intros E. unfold execute_query, lift, run_statement. rewrite E. simpl.
  destruct (engine conn (Stmt query Unbound)) as [[c rows]|e]; reflexivity.
Qed.


Lemma execute_query_answer (query : string) (conn conn' : database)
      (rows : list raw_row) :
  connect = Ret conn ->
  engine conn (Stmt query Unbound) = Ret (conn', rows) ->
  execute_query engine connect query None
  = (Ret (map dict_of_row rows), [Stmt query Unbound]).
Proof.
  intros E Q. unfold execute_query, lift, run_statement.
  rewrite E. simpl. rewrite Q. reflexivity.
Qed.

Lemma execute_query_unreachable (query : string) (e : exn) :
  connect = Raise e ->
  execute_query engine connect query None = (Raise e, []).
Proof.
  intros E. unfold execute_query, lift. rewrite E. reflexivity.
Qed.

Lemma column_info_issued (row : pydict) : issued (column_info row) = [].
Proof.
  unfold column_info, subscript, bind, ret, raise, issued.
  repeat match goal with
         | |- context [PyDict.get row ?k] => destruct (PyDict.get row k)
         end; reflexivity.
Qed.

Lemma for_each_issued {A B} (f : A -> M B) (xs : list A) :
  (forall x, issued (f x) = []) -> issued (for_each f xs) = [].
Proof.
  intros H. induction xs as [|x xs IH]; [reflexivity |].
  simpl. unfold bind. specialize (H x).
  destruct (f x) as [[y|e] w]; simpl in H; subst w; [| reflexivity].
  destruct (for_each f xs) as [[ys|e] w]; simpl in IH; subst w; reflexivity.
Qed.

(** The one statement [describe_table] issues carries the name inside
    its text. *)
Lemma describe_table_issued (table_name : string) (conn : database) :
  connect = Ret conn ->
  issued (describe_table engine connect table_name)
  = [Stmt ("PRAGMA table_info(" ++ table_name ++ ")") Unbound].
Proof.
  intros E. unfold describe_table.
  pose proof (execute_query_issued ("PRAGMA table_info(" ++ table_name ++ ")") conn E) as I.
  destruct (execute_query engine connect _ None) as [[results|e] w];
    simpl in I; subst w; [| reflexivity].
  destruct results as [|row results]; [reflexivity |].
  pose proof (for_each_issued column_info (row :: results) column_info_issued) as F.
  unfold bind, try_except.
  destruct (for_each column_info (row :: results)) as [[columns|e] w];
    simpl in F; subst w; reflexivity.
Qed.

(** An accepted query that the store answers comes back with its rows
    and their number. *)
Lemma run_query_success (query : string) (conn conn' : database)
      (rows : list raw_row) :
  accepted query = true ->
  connect = Ret conn ->
  engine conn (Stmt query Unbound) = Ret (conn', rows) ->
  execute_select_query engine connect query
  = (Ret [("status", PStr "success");
          ("query", PStr query);
          ("total_rows", PInt (Z.of_nat (length (map dict_of_row rows))));
          ("results", PList (map PDict (map dict_of_row rows)))],
     [Stmt query Unbound]).
Proof.
  unfold accepted. intros A E Q.
  unfold execute_select_query. rewrite A. simpl negb. cbv iota.
  unfold execute_query, lift, run_statement. rewrite E. simpl.
  rewrite Q. reflexivity.
Qed.

(** C1. A query that passes the validation and fails in the store
    (on connecting or on executing) comes back as an error envelope
    whose message ends with the text of the store's exception; the tool
    returns, it does not raise. *)
Theorem run_query_store_failure_enveloped (query : string) (e : exn) :
  accepted query = true ->
  outcome (execute_query engine connect query None) = Raise e ->
  outcome (execute_select_query engine connect query)
  = Ret (error_envelope ("Error executing query: " ++ exn_str e))
  /\ PyStr.contains ("Error executing query: " ++ exn_str e) (exn_str e) = true.
Proof.
  unfold accepted. intros Hacc Hraise. split.
  - unfold execute_select_query. rewrite Hacc. simpl negb. cbv iota.
    destruct (execute_query engine connect query None) as [[rows|e'] w].
    + discriminate Hraise.
    + simpl in Hraise. injection Hraise as ->. reflexivity.
  - apply contains_suffix.
Qed.

Lemma refused_query (query : string) :
  accepted query = false ->
  execute_select_query engine connect query = (Ret validation_envelope, []).
Proof.
  unfold accepted, execute_select_query. intros ->. reflexivity.
Qed.

(** What the query tool sends: the text it was given, or nothing. *)
Lemma run_query_issued (query : string) :
  issued (execute_select_query engine connect query)
  = if accepted query then
      match connect with
      | Ret _ => [Stmt query Unbound]
      | Raise _ => []
      end
    else [].
Proof.
  destruct (accepted query) eqn:A.
  - unfold accepted in A. unfold execute_select_query.
    rewrite A. simpl negb. cbv iota.
    destruct connect as [conn|e] eqn:E.
    + pose proof (execute_query_issued query conn E) as I. rewrite E in I.
      destruct (execute_query engine (Ret conn) query None) as [[rows|e] w];
        simpl in *; rewrite I; reflexivity.
    + pose proof (execute_query_unreachable query e E) as U. rewrite E in U.
      rewrite U. reflexivity.
  - now rewrite refused_query.
Qed.


Lemma validation_envelope_only_from_validation (query : string) :
  accepted query = true ->
  outcome (execute_select_query engine connect query) <> Ret validation_envelope.
Proof.
  unfold accepted, execute_select_query. intros ->. simpl negb. cbv iota.
  destruct (execute_query engine connect query None) as [[rows|e] w];
    simpl; unfold validation_envelope, error_envelope; intros H;
    discriminate H.
Qed.


(** C9. Each of the three tools returns, whatever the store does, and
    what it returns is an envelope that keeps the invariant: status
    success with payload and no error message, or status error with an
    error message and no payload. *)
Theorem tools_return_well_formed_envelopes :
  (exists env, outcome (list_tables engine connect) = Ret env
               /\ well_formed env = true)
  /\ (forall table_name,
        exists env, outcome (describe_table engine connect table_name) = Ret env
                    /\ well_formed env = true)
  /\ (forall query,
        exists env, outcome (execute_select_query engine connect query) = Ret env
                    /\ well_formed env = true).
Proof.
  split; [| split].
  - unfold list_tables. apply try_except_returns.
    + intros env H.
      apply bind_outcome_ret in H as [results [_ H]].
      apply bind_outcome_ret in H as [tables [_ H]].
      injection H as <-. reflexivity.
    + intros e. eexists. split; [reflexivity | apply error_envelope_well_formed].
  - intros table_name. unfold describe_table. apply try_except_returns.
    + intros env H.
      apply bind_outcome_ret in H as [results [_ H]].
      destruct results as [|row results].
      * injection H as <-. apply error_envelope_well_formed.
      * apply bind_outcome_ret in H as [columns [_ H]].
        injection H as <-. reflexivity.
    + intros e. eexists. split; [reflexivity | apply error_envelope_well_formed].
  - intros query. unfold execute_select_query. apply try_except_returns.
    + intros env H.
      destruct (negb (PyStr.startswith (PyStr.upper (PyStr.strip query)) "SELECT")).
      * injection H as <-. apply error_envelope_well_formed.
      * apply bind_outcome_ret in H as [results [_ H]].
        injection H as <-. reflexivity.
    + intros e. eexists. split; [reflexivity | apply error_envelope_well_formed].
Qed.


End ServiceFacts.

(** ** The statements of the loader, as the engine reads them *)

Lemma eat_append (lit s : string) : MiniSqlite.eat lit (lit ++ s) = Some s.
Proof.
  induction lit as [|c lit IH]; simpl; [reflexivity |].
  now rewrite Ascii.eqb_refl.
Qed.

















(** The metadata query, as the engine reads it. *)
Lemma take_ident_split (s : string) :
  forall name rest, MiniSqlite.take_ident s = (name, rest) -> s = name ++ rest.
Proof.
  induction s as [|c s IH]; intros name rest H; simpl in H.
  - now injection H as <- <-.
  - destruct (MiniSqlite.is_ident_char c).
    + destruct (MiniSqlite.take_ident s) as [name' rest'].
      injection H as <- <-. simpl. now rewrite (IH name' rest' eq_refl).
    + now injection H as <- <-.
Qed.

Lemma append_cancel_last (a b : string) (c : ascii) :
  a ++ String c "" = b ++ String c "" -> a = b.
Proof.
  revert b. induction a as [|x a IH]; intros [|y b] H; simpl in H.
  - reflexivity.
  - injection H as _ H. now destruct b.
  - injection H as _ H. now destruct a.
  - injection H as -> H. now rewrite (IH b H).
Qed.

Lemma parse_table_info (table_name : string) :
  MiniSqlite.parse ("PRAGMA table_info(" ++ table_name ++ ")") = None
  \/ MiniSqlite.parse ("PRAGMA table_info(" ++ table_name ++ ")")
     = Some (MiniSqlite.TableInfo table_name).
Proof.
  unfold MiniSqlite.parse.
  change (MiniSqlite.eat "CREATE TABLE " ("PRAGMA table_info(" ++ table_name ++ ")"))
    with (@None string).
  change (MiniSqlite.eat "INSERT INTO " ("PRAGMA table_info(" ++ table_name ++ ")"))
    with (@None string).
  change (MiniSqlite.eat "SELECT count(*) FROM " ("PRAGMA table_info(" ++ table_name ++ ")"))
    with (@None string).
  change (MiniSqlite.eat "SELECT * FROM " ("PRAGMA table_info(" ++ table_name ++ ")"))
    with (@None string).
  cbv iota. rewrite eat_append. unfold MiniSqlite.table_then.
  destruct (MiniSqlite.take_ident (table_name ++ ")")) as [name rest] eqn:T.
  apply take_ident_split in T.
  destruct (name =? "")%string; [now left |].
  destruct (String.eqb_spec rest ")") as [-> | _]; [| now left].
  apply append_cancel_last in T. subst name. now right.
Qed.

(** For a table that is not in the store the metadata query yields no
    row. *)
Lemma missing_table_yields_no_row (db : MiniSqlite.database) (table_name : string) :
  MiniSqlite.find_table db table_name = None ->
  forall conn' rows,
    MiniSqlite.execute db (Stmt ("PRAGMA table_info(" ++ table_name ++ ")") Unbound)
    = Ret (conn', rows) ->
    rows = [].
Proof.
  intros F conn' rows H. unfold MiniSqlite.execute in H. cbn [sql_text bound] in H.
  destruct (parse_table_info table_name) as [P | P]; rewrite P in H.
  - discriminate H.
  - cbn [MiniSqlite.plain] in H. rewrite F in H. now injection H as _ <-.
Qed.

(** The listing of table names, as the engine answers it. *)
Lemma insert_sorted_permutation (n : string) (names : list string) :
  Permutation (n :: names) (MiniSqlite.insert_sorted n names).
Proof.
  induction names as [|m names IH]; simpl; [apply Permutation_refl |].
  destruct (String.leb n m); [apply Permutation_refl |].
  apply perm_trans with (m :: n :: names); [apply perm_swap |].
  now apply perm_skip.
Qed.

Lemma sorted_names_permutation (db : MiniSqlite.database) :
  Permutation (map MiniSqlite.tbl_name db) (MiniSqlite.sorted_names db).
Proof.
  unfold MiniSqlite.sorted_names.
  induction (map MiniSqlite.tbl_name db) as [|n names IH]; simpl;
    [apply Permutation_refl |].
  apply perm_trans with (n :: fold_right MiniSqlite.insert_sorted [] names);
    [now apply perm_skip | apply insert_sorted_permutation].
Qed.

Lemma insert_sorted_sorted (n : string) (names : list string) :
  Sorted (fun a b => String.leb a b = true) names ->
  Sorted (fun a b => String.leb a b = true) (MiniSqlite.insert_sorted n names).
Proof.
  induction names as [|m names IH]; intros S; simpl.
  - repeat constructor.
  - destruct (String.leb n m) eqn:L.
    + constructor; [exact S | now constructor].
    + inversion S as [|? ? S' H]; subst.
      assert (String.leb m n = true) as L'
          by (destruct (String.leb_total m n) as [T|T]; [exact T | congruence]).
      constructor; [now apply IH |].
      destruct names as [|k names]; simpl.
      * now constructor.
      * destruct (String.leb n k); constructor; [exact L' |].
        now inversion H.
Qed.

Lemma sorted_names_sorted (db : MiniSqlite.database) :
  Sorted (fun a b => String.leb a b = true) (MiniSqlite.sorted_names db).
Proof.
  unfold MiniSqlite.sorted_names.
  induction (map MiniSqlite.tbl_name db) as [|n names IH]; simpl;
    [constructor | now apply insert_sorted_sorted].
Qed.

Lemma names_of_rows (names : list string) :
  for_each (fun row => subscript row "name")
           (map dict_of_row (map (fun n => [("name", PStr n)]) names))
  = (Ret (map PStr names), []).
Proof.
  induction names as [|n names IH]; [reflexivity |].
  simpl map. cbn [for_each].
  change (subscript (dict_of_row [("name", PStr n)]) "name") with (@ret pyval (PStr n)).
  rewrite IH. reflexivity.
Qed.


(** ** The loader, over any engine *)

Section LoaderFacts.

Variable database : Type.
Variable engine : database -> statement -> result (database * list raw_row).
Variable memory_db : database.

(** What the loader sends, and in which order. *)
Lemma load_database_issued
      (read_csv : string -> result (list (list string)))
      (csv_path : string) (headers : list string) (data : list (list string)) :
  read_csv csv_path = Ret (headers :: data) ->
  issued (load_database engine memory_db read_csv csv_path)
  = match engine memory_db (Stmt (create_sql headers) Unbound) with
    | Ret _ => [Stmt (create_sql headers) Unbound;
                Stmt (insert_sql headers) (Rows data)]
    | Raise _ => [Stmt (create_sql headers) Unbound]
    end.
Proof.
  intros E. unfold load_database, lift, run_statement. rewrite E. simpl.
  destruct (engine memory_db (Stmt (create_sql headers) Unbound))
    as [[created rows]|e]; [| reflexivity].
  simpl.
  destruct (engine created (Stmt (insert_sql headers) (Rows data)))
    as [[loaded rows']|e]; reflexivity.
Qed.

(** C2, as the code has it. The data rows of the loader reach the
    store as bound parameters only: two files with the same header
    give the same statement texts, and each statement is the table
    creation or the insertion with the rows bound to it.  The table
name given to [describe_table] is written into the statement text
and nothing is bound.  The query tool sends the text it was given, as
it stands. *)
Theorem data_rows_are_bound_table_name_is_interpolated :
  (forall read1 read2 path1 path2 headers data1 data2,
      read1 path1 = Ret (headers :: data1) ->
      read2 path2 = Ret (headers :: data2) ->
      map sql_text (issued (load_database engine memory_db read1 path1))
      = map sql_text (issued (load_database engine memory_db read2 path2)))
  /\ (forall read_csv csv_path headers data st,
        read_csv csv_path = Ret (headers :: data) ->
        In st (issued (load_database engine memory_db read_csv csv_path)) ->
        st = Stmt (create_sql headers) Unbound
        \/ st = Stmt (insert_sql headers) (Rows data))
/\ (forall conn table_name,
      issued (describe_table engine (Ret conn) table_name)
      = [Stmt ("PRAGMA table_info(" ++ table_name ++ ")") Unbound])
/\ (forall connect query st,
      In st (issued (execute_select_query engine connect query)) ->
      st = Stmt query Unbound).
Proof.
split; [| split; [| split]].
  - intros read1 read2 path1 path2 headers data1 data2 E1 E2.
    rewrite (load_database_issued read1 path1 headers data1 E1).
    rewrite (load_database_issued read2 path2 headers data2 E2).
    destruct (engine memory_db (Stmt (create_sql headers) Unbound)); reflexivity.
  - intros read_csv csv_path headers data st E.
    rewrite (load_database_issued read_csv csv_path headers data E).
    destruct (engine memory_db (Stmt (create_sql headers) Unbound));
      simpl; intuition.
- intros conn table_name.
  now apply (describe_table_issued database engine (Ret conn) table_name conn).
- intros connect query st.
  rewrite (run_query_issued database engine connect query).
  destruct (accepted query); [destruct connect |]; simpl; intuition.
Qed.

End LoaderFacts.

(** ** The loader and the service on the modelled engine *)






(** C8. On a store that has a table [t] without rows, the query tool
    answers the full scan of [t] with a success envelope: status
    success, zero rows in total, and the empty list of results. *)
Theorem select_from_empty_table (db : MiniSqlite.database) (tbl : MiniSqlite.table) :
  MiniSqlite.find_table db "t" = Some tbl ->
  MiniSqlite.tbl_rows tbl = [] ->
  outcome (execute_select_query MiniSqlite.execute (Ret db) "SELECT * FROM t")
  = Ret [("status", PStr "success");
         ("query", PStr "SELECT * FROM t");
         ("total_rows", PInt 0);
         ("results", PList [])].
Proof.
  intros F R.
  rewrite (run_query_success _ MiniSqlite.execute (Ret db) "SELECT * FROM t" db db []);
    try reflexivity.
  unfold MiniSqlite.execute. cbn [sql_text bound].
  change (MiniSqlite.parse "SELECT * FROM t") with (Some (MiniSqlite.SelectStar "t")).
  cbv iota. rewrite F, R. reflexivity.
Qed.

(** X1. The listing of tables: every table of the store, once, in
    byte-wise alphabetical order, with their number.  On tables [b],
    [a], [c] the answer is [a], [b], [c]. *)
Theorem list_tables_sorted (db : MiniSqlite.database) :
  exists names,
    outcome (list_tables MiniSqlite.execute (Ret db))
    = Ret [("status", PStr "success");
           ("total_tables", PInt (Z.of_nat (length db)));
           ("tables", PList (map PStr names))]
    /\ Permutation (map MiniSqlite.tbl_name db) names
    /\ Sorted (fun a b => String.leb a b = true) names
    /\ outcome (list_tables MiniSqlite.execute
                  (Ret [MiniSqlite.Table "b" [] []; MiniSqlite.Table "a" [] [];
                        MiniSqlite.Table "c" [] []]))
       = Ret [("status", PStr "success");
              ("total_tables", PInt 3);
              ("tables", PList [PStr "a"; PStr "b"; PStr "c"])].
Proof.
  exists (MiniSqlite.sorted_names db).
  split; [| split; [apply sorted_names_permutation
                   | split; [apply sorted_names_sorted | reflexivity]]].
  unfold list_tables.
  rewrite (execute_query_answer MiniSqlite.database MiniSqlite.execute (Ret db)
             list_tables_sql db db
             (map (fun n => [("name", PStr n)]) (MiniSqlite.sorted_names db))
             eq_refl eq_refl).
  unfold bind at 1. rewrite names_of_rows. simpl.
  rewrite length_map.
  rewrite <- (Permutation_length (sorted_names_permutation db)), length_map.
  reflexivity.
Qed.




(** ** Concrete runs *)

(** C1 at the query of the specification: a scan of a table the store
    does not have. *)
Lemma run_query_store_failure_enveloped_witness :
  accepted "SELECT * FROM nosuchtable" = true
  /\ outcome (execute_query MiniSqlite.execute (Ret MiniSqlite.empty)
                "SELECT * FROM nosuchtable" None)
     = Raise (MiniSqlite.no_such_table "nosuchtable")
  /\ outcome (execute_select_query MiniSqlite.execute (Ret MiniSqlite.empty)
                "SELECT * FROM nosuchtable")
     = Ret (error_envelope "Error executing query: no such table: nosuchtable")
  /\ PyStr.contains "Error executing query: no such table: nosuchtable"
       "no such table: nosuchtable" = true.
Proof.
  split; [reflexivity | split; [reflexivity |]].
  apply (run_query_store_failure_enveloped
           MiniSqlite.database MiniSqlite.execute (Ret MiniSqlite.empty)
           "SELECT * FROM nosuchtable" (MiniSqlite.no_such_table "nosuchtable"));
    reflexivity.
Defined.





(** C2 as written fails for [describe_table]: no one text serves every
    table name. *)
Lemma describe_table_text_is_no_fixed_template :
  ~ exists template : string,
      forall table_name,
        map sql_text
            (issued (describe_table MiniSqlite.execute (Ret MiniSqlite.empty) table_name))
        = [template].
Proof.
  intros [template H].
  pose proof (H "a") as Ha. pose proof (H "b") as Hb.
  vm_compute in Ha, Hb. congruence.
Qed.

Lemma data_rows_are_bound_table_name_is_interpolated_witness :
  map sql_text
      (issued (load_database MiniSqlite.execute MiniSqlite.empty
                 (fun _ => Ret [["a"; "b"]; ["1"; "2"]]) "one.csv"))
  = map sql_text
        (issued (load_database MiniSqlite.execute MiniSqlite.empty
                   (fun _ => Ret [["a"; "b"]; ["x'); DROP TABLE t; --"; "4"]; ["5"; "6"]])
                   "two.csv")).
Proof.
  apply (proj1 (data_rows_are_bound_table_name_is_interpolated
                  MiniSqlite.database MiniSqlite.execute MiniSqlite.empty)
               (fun _ => Ret [["a"; "b"]; ["1"; "2"]])
               (fun _ => Ret [["a"; "b"]; ["x'); DROP TABLE t; --"; "4"]; ["5"; "6"]])
               "one.csv" "two.csv" ["a"; "b"]
               [["1"; "2"]] [["x'); DROP TABLE t; --"; "4"]; ["5"; "6"]]);
    reflexivity.
Defined.





(** C8 on a store whose only table is [t], with one column and no row. *)
Lemma select_from_empty_table_witness :
  outcome (execute_select_query MiniSqlite.execute
             (Ret [MiniSqlite.Table "t" [("a", "TEXT")] []]) "SELECT * FROM t")
  = Ret [("status", PStr "success");
         ("query", PStr "SELECT * FROM t");
         ("total_rows", PInt 0);
         ("results", PList [])].
Proof.
  apply (select_from_empty_table
           [MiniSqlite.Table "t" [("a", "TEXT")] []]
           (MiniSqlite.Table "t" [("a", "TEXT")] []));
    reflexivity.
Defined.

(** ** More on the query service *)

Lemma is_space_upper_char (c : ascii) :
  PyStr.is_space (PyStr.upper_char c) = PyStr.is_space c.
Proof. destruct c as [[] [] [] [] [] [] [] []]; reflexivity. Qed.

Lemma is_space_lower_char (c : ascii) :
  PyStr.is_space (PyStr.lower_char c) = PyStr.is_space c.
Proof. destruct c as [[] [] [] [] [] [] [] []]; reflexivity. Qed.

Lemma upper_char_twice (c : ascii) :
  PyStr.upper_char (PyStr.upper_char c) = PyStr.upper_char c.
Proof. destruct c as [[] [] [] [] [] [] [] []]; reflexivity. Qed.

Lemma upper_char_lower_char (c : ascii) :
  PyStr.upper_char (PyStr.lower_char c) = PyStr.upper_char c.
Proof. destruct c as [[] [] [] [] [] [] [] []]; reflexivity. Qed.

Lemma map_chars_map_chars (f g : ascii -> ascii) (s : string) :
  PyStr.map_chars f (PyStr.map_chars g s) = PyStr.map_chars (fun c => f (g c)) s.
Proof.
  induction s as [|c s IH]; simpl; [reflexivity | now rewrite IH].
Qed.

Lemma map_chars_ext (f g : ascii -> ascii) (s : string) :
  (forall c, f c = g c) -> PyStr.map_chars f s = PyStr.map_chars g s.
Proof.
  intros H. induction s as [|c s IH]; simpl; [reflexivity | now rewrite H, IH].
Qed.

Lemma lstrip_map_chars (f : ascii -> ascii) (s : string) :
  (forall c, PyStr.is_space (f c) = PyStr.is_space c) ->
  PyStr.lstrip (PyStr.map_chars f s) = PyStr.map_chars f (PyStr.lstrip s).
Proof.
  intros H. induction s as [|c s IH]; simpl; [reflexivity |].
  rewrite H. now destruct (PyStr.is_space c).
Qed.

Lemma rstrip_map_chars (f : ascii -> ascii) (s : string) :
  (forall c, PyStr.is_space (f c) = PyStr.is_space c) ->
  PyStr.rstrip (PyStr.map_chars f s) = PyStr.map_chars f (PyStr.rstrip s).
Proof.
  intros H. induction s as [|c s IH]; simpl; [reflexivity |].
  rewrite IH, H. destruct (PyStr.rstrip s); simpl; [| reflexivity].
  now destruct (PyStr.is_space c).
Qed.

Lemma strip_map_chars (f : ascii -> ascii) (s : string) :
  (forall c, PyStr.is_space (f c) = PyStr.is_space c) ->
  PyStr.strip (PyStr.map_chars f s) = PyStr.map_chars f (PyStr.strip s).
Proof.
  intros H. unfold PyStr.strip.
  now rewrite (lstrip_map_chars f s H), (rstrip_map_chars f _ H).
Qed.

Lemma accepted_upper (query : string) :
  accepted (PyStr.upper query) = accepted query.
Proof.
  unfold accepted, PyStr.upper.
  rewrite (strip_map_chars _ query is_space_upper_char), map_chars_map_chars.
  now rewrite (map_chars_ext _ PyStr.upper_char _ upper_char_twice).
Qed.

Lemma accepted_lower (query : string) :
  accepted (PyStr.lower query) = accepted query.
Proof.
  unfold accepted, PyStr.upper, PyStr.lower.
  rewrite (strip_map_chars _ query is_space_lower_char), map_chars_map_chars.
  now rewrite (map_chars_ext _ PyStr.upper_char _ upper_char_lower_char).
Qed.

Lemma lstrip_all_space (pad s : string) :
  all_space pad = true -> PyStr.lstrip (pad ++ s) = PyStr.lstrip s.
Proof.
  induction pad as [|c pad IH]; intros H; [reflexivity |].
  simpl in H. apply andb_true_iff in H as [Hc Hp].
  simpl. now rewrite Hc, (IH Hp).
Qed.

Lemma rstrip_all_space (pad : string) :
  all_space pad = true -> PyStr.rstrip pad = "".
Proof.
  induction pad as [|c pad IH]; intros H; [reflexivity |].
  simpl in H. apply andb_true_iff in H as [Hc Hp].
  simpl. now rewrite (IH Hp), Hc.
Qed.

Lemma rstrip_padded (s pad : string) :
  all_space pad = true -> PyStr.rstrip (s ++ pad) = PyStr.rstrip s.
Proof.
  intros H. induction s as [|c s IH]; simpl.
  - now apply rstrip_all_space.
  - now rewrite IH.
Qed.

Lemma strip_padded (pad1 s pad2 : string) :
  all_space pad1 = true -> all_space pad2 = true ->
  PyStr.strip (pad1 ++ s ++ pad2) = PyStr.strip s.
Proof.
  intros H1 H2. unfold PyStr.strip. rewrite (lstrip_all_space pad1 _ H1).
  induction s as [|c s IH].
  - simpl. clear H1. induction pad2 as [|c pad2 IH]; [reflexivity |].
    simpl in H2. apply andb_true_iff in H2 as [Hc Hp].
    simpl. rewrite Hc. now apply IH.
  - simpl. destruct (PyStr.is_space c); [exact IH |].
    change (String c (s ++ pad2)) with (String c s ++ pad2).
    now apply rstrip_padded.
Qed.

Lemma accepted_padded (pad1 query pad2 : string) :
  all_space pad1 = true -> all_space pad2 = true ->
  accepted (pad1 ++ query ++ pad2) = accepted query.
Proof.
  intros H1 H2. unfold accepted. now rewrite (strip_padded pad1 query pad2 H1 H2).
Qed.

Section ServiceMore.

Variable database : Type.
Variable engine : database -> statement -> result (database * list raw_row).
Variable connect : result database.

Lemma refusal_iff (query : string) :
  outcome (execute_select_query engine connect query) = Ret validation_envelope
  <-> accepted query = false.
Proof.
  split.
  - intros H. destruct (accepted query) eqn:A; [| reflexivity].
    exfalso.
    now apply (validation_envelope_only_from_validation database engine connect query).
  - intros A. now rewrite (refused_query database engine connect query A).
Qed.

(** X3. A failure of the store (on connecting or on executing) in
    [list_tables] or in [describe_table] comes back as an error envelope
    whose message is the tool's prefix followed by the text of the
    exception; neither tool raises. *)
Theorem metadata_tools_report_store_failure (table_name : string) (e : exn) :
  (outcome (execute_query engine connect list_tables_sql None) = Raise e ->
   outcome (list_tables engine connect)
   = Ret (error_envelope ("Error listing tables: " ++ exn_str e)))
  /\ (outcome (execute_query engine connect
                 ("PRAGMA table_info(" ++ table_name ++ ")") None) = Raise e ->
      outcome (describe_table engine connect table_name)
      = Ret (error_envelope ("Error describing table: " ++ exn_str e))).
Proof.
  split; intros H.
  - unfold list_tables.
    destruct (execute_query engine connect list_tables_sql None) as [[rows|e'] w];
      simpl in H; [discriminate H | injection H as ->]. reflexivity.
  - unfold describe_table.
    destruct (execute_query engine connect _ None) as [[rows|e'] w];
      simpl in H; [discriminate H | injection H as ->]. reflexivity.
Qed.

(** X5. A success envelope of the query tool is made of the rows
    [execute_query] fetched and of nothing else: the query text as it
    was given, the number of the rows, and the rows themselves; and it is
    returned for accepted queries only. *)
Theorem run_query_success_carries_rows (query : string) (env : envelope) :
  outcome (execute_select_query engine connect query) = Ret env ->
  has_status env "success" = true ->
  accepted query = true
  /\ exists results,
       outcome (execute_query engine connect query None) = Ret results
       /\ env = [("status", PStr "success");
                 ("query", PStr query);
                 ("total_rows", PInt (Z.of_nat (length results)));
                 ("results", PList (map PDict results))].
Proof.
  intros H S. destruct (accepted query) eqn:A.
  - split; [reflexivity |].
    unfold accepted in A. unfold execute_select_query in H.
    rewrite A in H. simpl negb in H. cbv iota in H.
    destruct (execute_query engine connect query None) as [[results|e] w];
      simpl in H; injection H as <-.
    + exists results. split; reflexivity.
    + discriminate S.
  - rewrite (refused_query database engine connect query A) in H.
    simpl in H. injection H as <-. discriminate S.
Qed.

(** X6. Whether the query tool refuses a text does not depend on the
    case of its letters nor on white space around it. *)
Theorem validation_ignores_case_and_padding (query pad1 pad2 : string) :
  all_space pad1 = true ->
  all_space pad2 = true ->
  (outcome (execute_select_query engine connect (pad1 ++ query ++ pad2))
   = Ret validation_envelope
   <-> outcome (execute_select_query engine connect query) = Ret validation_envelope)
  /\ (outcome (execute_select_query engine connect (PyStr.upper query))
      = Ret validation_envelope
      <-> outcome (execute_select_query engine connect query) = Ret validation_envelope)
  /\ (outcome (execute_select_query engine connect (PyStr.lower query))
      = Ret validation_envelope
      <-> outcome (execute_select_query engine connect query) = Ret validation_envelope).
Proof.
  intros H1 H2. rewrite !refusal_iff.
  rewrite (accepted_padded pad1 query pad2 H1 H2), accepted_upper, accepted_lower.
  repeat split; intros H; exact H.
Qed.

Lemma described_metas (metas : list column_meta) :
  for_each column_info (map dict_of_row (map table_info_row metas))
  = (Ret (map described_meta metas), []).
Proof.
  induction metas as [|m metas IH]; [reflexivity |].
  simpl map. cbn [for_each].
  change (column_info (dict_of_row (table_info_row m)))
    with (@ret pyval (described_meta m)).
  rewrite IH. reflexivity.
Qed.

(** X4. When the metadata query yields rows, [describe_table] returns a
    success envelope with the name as it was given and one entry per row,
    in the order of the rows: position, name and type as the store tells
    them, the default passed through, and [not_null] and [primary_key]
    true exactly when the store's number is not zero. *)
Theorem describe_table_columns
        (table_name : string) (conn conn' : database) (metas : list column_meta) :
  connect = Ret conn ->
  engine conn (Stmt ("PRAGMA table_info(" ++ table_name ++ ")") Unbound)
  = Ret (conn', map table_info_row metas) ->
  metas <> [] ->
  outcome (describe_table engine connect table_name)
  = Ret [("status", PStr "success");
         ("table_name", PStr table_name);
         ("columns", PList (map described_meta metas))].
Proof.
  intros E Q Hne. unfold describe_table.
  rewrite (execute_query_answer database engine connect _ conn conn' _ E Q).
  unfold bind at 1.
  pose proof (described_metas metas) as D.
  destruct metas as [|m metas]; [now elim Hne |].
  remember (m :: metas) as ms eqn:Hms.
  destruct (map dict_of_row (map table_info_row ms)) as [|row rows] eqn:R.
  - subst ms. discriminate R.
  - rewrite D. reflexivity.
Qed.

End ServiceMore.

(** ** More on the loader *)











(** ** The interactive loop *)

Section InteractiveFacts.

Variable database : Type.
Variable engine : database -> statement -> result (database * list raw_row).







End InteractiveFacts.



(** ** Concrete runs of the further properties *)

(** X3 on a store that cannot be opened. *)
Lemma metadata_tools_report_store_failure_witness :
  outcome (list_tables MiniSqlite.execute
             (Raise (Exn OperationalError "unable to open database file")))
  = Ret (error_envelope "Error listing tables: unable to open database file")
  /\ outcome (describe_table MiniSqlite.execute (Ret MiniSqlite.empty) "a b")
     = Ret (error_envelope "Error describing table: syntax error").
Proof.
  split.
  - apply (proj1 (metadata_tools_report_store_failure
                    MiniSqlite.database MiniSqlite.execute
                    (Raise (Exn OperationalError "unable to open database file"))
                    "t" (Exn OperationalError "unable to open database file"))).
    reflexivity.
  - apply (proj2 (metadata_tools_report_store_failure
                    MiniSqlite.database MiniSqlite.execute (Ret MiniSqlite.empty)
                    "a b" (MiniSqlite.operational "syntax error"))).
    reflexivity.
Defined.

(** X4 on a store that tells of a key column and of a nullable one with
    a default. *)
Lemma describe_table_columns_witness :
  outcome (describe_table
             (fun (_ : unit) (_ : statement) =>
                Ret (tt, map table_info_row
                           [ColumnMeta 0 "id" "INTEGER" 1 PNone 1;
                            ColumnMeta 1 "make" "TEXT" 0 (PStr "'?'") 0]))
             (Ret tt) "cars")
  = Ret [("status", PStr "success");
         ("table_name", PStr "cars");
         ("columns",
          PList [PDict [("column_id", PInt 0); ("name", PStr "id");
                        ("type", PStr "INTEGER"); ("not_null", PBool true);
                        ("default_value", PNone); ("primary_key", PBool true)];
                 PDict [("column_id", PInt 1); ("name", PStr "make");
                        ("type", PStr "TEXT"); ("not_null", PBool false);
                        ("default_value", PStr "'?'"); ("primary_key", PBool false)]])].
Proof.
  apply (describe_table_columns unit
           (fun (_ : unit) (_ : statement) =>
              Ret (tt, map table_info_row
                         [ColumnMeta 0 "id" "INTEGER" 1 PNone 1;
                          ColumnMeta 1 "make" "TEXT" 0 (PStr "'?'") 0]))
           (Ret tt) "cars" tt tt
           [ColumnMeta 0 "id" "INTEGER" 1 PNone 1;
            ColumnMeta 1 "make" "TEXT" 0 (PStr "'?'") 0]).
  - reflexivity.
  - reflexivity.
  - discriminate.
Defined.

(** X5 on the count of a table of two rows. *)
Lemma run_query_success_carries_rows_witness :
  accepted "SELECT count(*) FROM electric_vehicle_population" = true
  /\ exists results,
       outcome (execute_query MiniSqlite.execute
                  (Ret [loaded_table ["a"] [["1"]; ["2"]]])
                  "SELECT count(*) FROM electric_vehicle_population" None)
       = Ret results
       /\ [("status", PStr "success");
           ("query", PStr "SELECT count(*) FROM electric_vehicle_population");
           ("total_rows", PInt 1);
           ("results", PList [PDict [("count(*)", PInt 2)]])]
          = [("status", PStr "success");
             ("query", PStr "SELECT count(*) FROM electric_vehicle_population");
             ("total_rows", PInt (Z.of_nat (length results)));
             ("results", PList (map PDict results))].
Proof.
  apply (run_query_success_carries_rows
           MiniSqlite.database MiniSqlite.execute
           (Ret [loaded_table ["a"] [["1"]; ["2"]]])
           "SELECT count(*) FROM electric_vehicle_population");
    reflexivity.
Defined.

(** X6 on a query in lower case between a tab and a line break. *)
Lemma validation_ignores_case_and_padding_witness :
  (outcome (execute_select_query MiniSqlite.execute (Ret MiniSqlite.empty)
              (String (ascii_of_nat 9) "" ++ "select 1" ++ String (ascii_of_nat 10) ""))
   = Ret validation_envelope
   <-> outcome (execute_select_query MiniSqlite.execute (Ret MiniSqlite.empty)
                  "select 1") = Ret validation_envelope)
  /\ (outcome (execute_select_query MiniSqlite.execute (Ret MiniSqlite.empty)
                 (PyStr.upper "select 1")) = Ret validation_envelope
      <-> outcome (execute_select_query MiniSqlite.execute (Ret MiniSqlite.empty)
                     "select 1") = Ret validation_envelope)
  /\ (outcome (execute_select_query MiniSqlite.execute (Ret MiniSqlite.empty)
                 (PyStr.lower "select 1")) = Ret validation_envelope
      <-> outcome (execute_select_query MiniSqlite.execute (Ret MiniSqlite.empty)
                     "select 1") = Ret validation_envelope).
Proof.
  apply (validation_ignores_case_and_padding
           MiniSqlite.database MiniSqlite.execute (Ret MiniSqlite.empty)
           "select 1" (String (ascii_of_nat 9) "") (String (ascii_of_nat 10) ""));
    reflexivity.
Defined.






